(** * license-manager: the admin forms of the subscriptions app

    A shallow embedding of [license_manager/apps/subscriptions/forms.py]:
    the three [is_valid] overrides ([SubscriptionPlanForm],
    [SubscriptionPlanRenewalForm], [ProductForm]) and the choice population of
    [CustomerAgreementAdminForm].

    Python statements are embedded in a small monad that carries the form's
    error dictionary and distinguishes the three ways a statement can end:
    falling through, [return b], or an uncaught exception. *)

From Stdlib Require Import ZArith String List Bool Lia DecimalString.
Import ListNotations.

Open Scope string_scope.
Open Scope Z_scope.

(* ================================================================== *)
(** ** Python statements *)

Module Py.

(** The exceptions the forms can run into: attribute access on [None] and
    an ordering comparison with [None]. *)
Inductive exn : Type :=
| AttributeError
| TypeError.

(** How a statement ends. *)
Inductive completion (A : Type) : Type :=
| Normal (a : A)
| Return (b : bool)
| Raise (e : exn).
Arguments Normal {A} a.
Arguments Return {A} b.
Arguments Raise {A} e.

(** [form.errors]: the (field, message) pairs in the order they were added. *)
Definition ErrorDict : Type := list (string * string).

Definition stmt (A : Type) : Type := ErrorDict -> completion A * ErrorDict.

Definition ret {A} (a : A) : stmt A := fun errs => (Normal a, errs).

Definition bind {A B} (c : stmt A) (k : A -> stmt B) : stmt B :=
  fun errs =>
    match c errs with
    | (Normal a, errs') => k a errs'
    | (Return b, errs') => (Return b, errs')
    | (Raise e, errs') => (Raise e, errs')
    end.

(** [return b] *)
Definition return_ {A} (b : bool) : stmt A := fun errs => (Return b, errs).

(** [raise e] *)
Definition raise {A} (e : exn) : stmt A := fun errs => (Raise e, errs).

(** [self.add_error(field, message)] *)
Definition add_error (field message : string) : stmt unit :=
  fun errs => (Normal tt, (errs ++ [(field, message)])%list).

(** [if c: body] *)
Definition when (c : bool) (body : stmt unit) : stmt unit :=
  if c then body else ret tt.

(** [o.attr]: attribute access, which fails on [None]. *)
Definition getattr {A B} (o : option A) (attr : A -> B) : stmt B :=
  match o with
  | Some a => ret (attr a)
  | None => raise AttributeError
  end.

(** [a < b] on values that may be [None]. *)
Definition lt (a b : option Z) : stmt bool :=
  match a, b with
  | Some x, Some y => ret (x <? y)
  | _, _ => raise TypeError
  end.

(** [d.get(key, default)] on an entry that may be missing. *)
Definition get_default {A} (entry : option A) (default : A) : A :=
  match entry with
  | Some v => v
  | None => default
  end.

(** [key in xs] for a list of strings. *)
Definition contains (key : string) (xs : list string) : bool :=
  existsb (String.eqb key) xs.

(** [str(n)] for an integer, as an f-string renders it. *)
Definition str_int (n : Z) : string := NilZero.string_of_int (Z.to_int n).

(** The result of calling a method whose body always ends in [return] or
    in an exception. *)
Inductive outcome : Type :=
| Returned (b : bool)
| Raised (e : exn).

(** A call on a form whose error dictionary is still empty. *)
Definition call (body : stmt Empty_set) : outcome * ErrorDict :=
  match body [] with
  | (Normal a, _) => match a with end
  | (Return b, errs) => (Returned b, errs)
  | (Raise e, errs) => (Raised e, errs)
  end.

(** Truth value testing ([bool(x)], [not x], [if x]). *)
Class Truthy (A : Type) : Type := truthy : A -> bool.

#[global] Instance Truthy_str : Truthy string :=
  fun s => negb (String.eqb s "").

#[global] Instance Truthy_option {A} `{Truthy A} : Truthy (option A) :=
  fun o => match o with Some a => truthy a | None => false end.

Definition is_None {A} (o : option A) : bool :=
  match o with Some _ => false | None => true end.

End Py.

Import Py.

Declare Scope py_scope.
Delimit Scope py_scope with py.
Notation "x <- c ;; k" := (bind c (fun x => k))
  (at level 61, c at next level, right associativity) : py_scope.
Notation "c ;; k" := (bind c (fun _ => k))
  (at level 61, right associativity) : py_scope.

(* ================================================================== *)
(** ** Django form fields *)

Module Field.

(** What the admin submitted for a numeric input. *)
Inductive submitted : Type :=
| Blank
| Malformed
| Whole (n : Z).

(** [forms.IntegerField(required=..., min_value=...)] *)
Record IntegerField : Type := {
  required : bool;
  min_value : option Z;
}.

(** [IntegerField.clean]: the cleaned value, or the message of the
    validation error. An empty value skips the validators. *)
Definition clean (fld : IntegerField) (value : submitted)
  : option Z + string :=
  match value with
  | Blank =>
      if required fld then inr "This field is required." else inl None
  | Malformed => inr "Enter a whole number."
  | Whole n =>
      match min_value fld with
      | Some limit =>
          if n <? limit
          then inr ("Ensure this value is greater than or equal to "
                      ++ str_int limit ++ ".")
          else inl (Some n)
      | None => inl (Some n)
      end
  end.

(** The error a declared field contributes to [form.errors]. *)
Definition field_errors (name : string) (fld : IntegerField)
           (value : submitted) : ErrorDict :=
  match clean fld value with
  | inl _ => []
  | inr message => [(name, message)]
  end.

(** The entry of [cleaned_data] for the field: missing when it failed. *)
Definition cleaned_value (fld : IntegerField) (value : submitted)
  : option Z :=
  match clean fld value with
  | inl v => v
  | inr _ => None
  end.

(** [Form.is_valid] of a bound form: Django's [self.is_bound and not
    self.errors] with [is_bound] true, as it is for a form built from a
    submission. Run the cleaning, then [not self.errors]. An unbound form,
    which returns [False] and has no error, is outside the model. *)
Definition is_valid (found : ErrorDict) : stmt bool :=
  fun errs =>
    let errs' := (errs ++ found)%list in
    (Normal (match errs' with [] => true | _ :: _ => false end), errs').

End Field.

(* ================================================================== *)
(** ** Model records *)

(** Modelled from the spec: [models.py] and [utils.py] are absent; the records
    below carry the attributes [forms.py] reads, with the nullability the
    data model of the specification gives them. A timestamp is its offset
    from the epoch, so that [<] on aware datetimes is [<] on [Z]. *)
Definition datetime : Type := Z.

Definition UUID : Type := N.

(** A [uuid.UUID] object is always true. *)
#[global] Instance Truthy_UUID : Truthy UUID := fun _ => true.

Record PlanType : Type := {
  sf_id_required : bool;
  ns_id_required : bool;
}.

Record Product : Type := {
  plan_type : option PlanType;
  netsuite_id : option string;
}.

Record SubscriptionPlan : Type := {
  uuid : UUID;
  title : string;
  customer_agreement_id : Z;
  is_active : bool;
  start_date : datetime;
  expiration_date : datetime;
  for_internal_use_only : bool;
  is_revocation_cap_enabled : bool;
  revoke_max_percentage : Z;
}.

Record CustomerAgreement : Type := {
  pk : Z;
  default_enterprise_catalog_uuid : option UUID;
  auto_applicable_subscription : option SubscriptionPlan;
}.

Record SubscriptionPlanRenewal : Type := {
  prior_subscription_plan : option SubscriptionPlan;
}.

(** Model instances define no [__bool__]: they are always true. *)
#[global] Instance Truthy_Product : Truthy Product := fun _ => true.
#[global] Instance Truthy_SubscriptionPlan : Truthy SubscriptionPlan :=
  fun _ => true.

(* ================================================================== *)
(** ** [SubscriptionPlanForm] *)

Module SubscriptionPlanForm.

(** A bound form (one built from a submission, [is_bound] true) after the
    base cleaning: what was submitted for the
    declared [num_licenses] field, the errors the base validation found on
    the remaining fields, [changed_data], the entries of [cleaned_data] the
    override reads ([None] for a missing or empty entry), and the instance
    built from the submission. *)
Record form : Type := {
  data_num_licenses : Field.submitted;
  other_field_errors : ErrorDict;
  changed_data : list string;
  cleaned_customer_agreement : option CustomerAgreement;
  cleaned_enterprise_catalog_uuid : option UUID;
  cleaned_product : option Product;
  cleaned_salesforce_opportunity_id : option string;
  instance : SubscriptionPlan;
}.

Section Constants.

(** [constants.py] is absent: the two bounds are parameters. *)
Variables MIN_NUM_LICENSES MAX_NUM_LICENSES : Z.

(** [num_licenses = forms.IntegerField(required=True,
    min_value=MIN_NUM_LICENSES)] *)
Definition num_licenses : Field.IntegerField :=
  {| Field.required := true; Field.min_value := Some MIN_NUM_LICENSES |}.

(** [self.cleaned_data.get('num_licenses')] *)
Definition cleaned_num_licenses (self : form) : option Z :=
  Field.cleaned_value num_licenses (data_num_licenses self).

(** The errors of the base validation. [form.errors] is keyed by field;
    the order of this list is not that of Django's fields, and no property
    depends on it. *)
Definition base_errors (self : form) : ErrorDict :=
  (Field.field_errors "num_licenses" num_licenses (data_num_licenses self)
     ++ other_field_errors self)%list.

(** [super().is_valid()] *)
Definition super_is_valid (self : form) : stmt bool :=
  Field.is_valid (base_errors self).

(** Lines 64-72: the catalog uuid of a newly linked agreement. *)
Definition check_enterprise_catalog_uuid (self : form) : stmt unit :=
  (when (contains "customer_agreement" (changed_data self)) (
     let form_customer_agreement := cleaned_customer_agreement self in
     let form_enterprise_catalog_uuid :=
       cleaned_enterprise_catalog_uuid self in
     default_uuid <- getattr form_customer_agreement
                             default_enterprise_catalog_uuid ;;
     when (negb (truthy default_uuid)
           && negb (truthy form_enterprise_catalog_uuid)) (
       add_error
         "enterprise_catalog_uuid"
         "The subscription must have an enterprise catalog uuid from itself or its customer agreement" ;;
       return_ false)))%py.

(** Lines 74-81: the cap on the number of licenses. *)
Definition check_num_licenses (self : form) : stmt unit :=
  (let form_num_licenses := get_default (cleaned_num_licenses self) 0 in
   when ((form_num_licenses >? MAX_NUM_LICENSES)
         && negb (for_internal_use_only (instance self))) (
     add_error
       "num_licenses"
       ("Non-test subscriptions may not have more than "
          ++ str_int MAX_NUM_LICENSES ++ " licenses") ;;
     return_ false))%py.

(** Lines 83-86: the revocation percentage. *)
Definition check_revoke_max_percentage (self : form) : stmt unit :=
  (when (is_revocation_cap_enabled (instance self)
         && (revoke_max_percentage (instance self) >? 100)) (
     add_error "revoke_max_percentage"
               "Must be a valid percentage (0-100)." ;;
     return_ false))%py.

(** Lines 88-95: a product must be chosen. *)
Definition check_product (self : form) : stmt unit :=
  (let product := cleaned_product self in
   when (negb (truthy product)) (
     add_error "product" "You must specify a product." ;;
     return_ false))%py.

(** Lines 97-102: the Salesforce id the product's plan type asks for. *)
Definition check_salesforce_opportunity_id (self : form) : stmt unit :=
  (let product := cleaned_product self in
   the_plan_type <- getattr product plan_type ;;
   required <- getattr the_plan_type sf_id_required ;;
   when (required && is_None (cleaned_salesforce_opportunity_id self)) (
     add_error "salesforce_opportunity_id"
               "You must specify Salesforce ID for selected product." ;;
     return_ false))%py.

(** The rules after the base validation, in source order. *)
Definition rules (self : form) : stmt Empty_set :=
  (check_enterprise_catalog_uuid self ;;
   check_num_licenses self ;;
   check_revoke_max_percentage self ;;
   check_product self ;;
   check_salesforce_opportunity_id self ;;
   return_ true)%py.

(** [SubscriptionPlanForm.is_valid] *)
Definition is_valid (self : form) : stmt Empty_set :=
  (ok <- super_is_valid self ;;
   when (negb ok) (return_ false) ;;
   rules self)%py.

End Constants.

End SubscriptionPlanForm.

(* ================================================================== *)
(** ** [SubscriptionPlanRenewalForm] *)

Module SubscriptionPlanRenewalForm.

Record form : Type := {
  field_errors : ErrorDict;
  cleaned_effective_date : option datetime;
  cleaned_renewed_expiration_date : option datetime;
  instance : SubscriptionPlanRenewal;
}.

Section Clock.

(** The value [localized_utcnow()] returns during the call. *)
Variable now : datetime.

(** [SubscriptionPlanRenewalForm.is_valid] *)
Definition is_valid (self : form) : stmt Empty_set :=
  (ok <- Field.is_valid (field_errors self) ;;
   when (negb ok) (return_ false) ;;
   let form_effective_date := cleaned_effective_date self in
   let form_renewed_expiration_date :=
     cleaned_renewed_expiration_date self in
   in_the_past <- lt form_effective_date (Some now) ;;
   when in_the_past (
     add_error
       "effective_date"
       "A subscription renewal can not be scheduled to become effective in the past." ;;
     return_ false) ;;
   expires_first <- lt form_renewed_expiration_date form_effective_date ;;
   when expires_first (
     add_error
       "renewed_expiration_date"
       "A subscription renewal can not expire before it becomes effective." ;;
     return_ false) ;;
   let subscription := prior_subscription_plan (instance self) in
   prior_expiration <- getattr subscription expiration_date ;;
   too_early <- lt form_effective_date (Some prior_expiration) ;;
   when too_early (
     add_error
       "effective_date"
       "A subscription renewal can not take effect before a subscription expires." ;;
     return_ false) ;;
   return_ true)%py.

End Clock.

End SubscriptionPlanRenewalForm.

(* ================================================================== *)
(** ** [ProductForm] *)

Module ProductForm.

Record form : Type := {
  field_errors : ErrorDict;
  instance : Product;
}.

(** [ProductForm.is_valid] *)
Definition is_valid (self : form) : stmt Empty_set :=
  (ok <- Field.is_valid (field_errors self) ;;
   when (negb ok) (return_ false) ;;
   required <- getattr (plan_type (instance self)) ns_id_required ;;
   when (required && negb (truthy (netsuite_id (instance self)))) (
     add_error "netsuite_id"
               "You must specify Netsuite ID for selected plan type." ;;
     return_ false) ;;
   return_ true)%py.

End ProductForm.

(* ================================================================== *)
(** ** [CustomerAgreementAdminForm] *)

Module CustomerAgreementAdminForm.

(** The value of a choice: the empty string of the blank entry, or the
    uuid of a plan. *)
Inductive choice_value : Type :=
| Text (s : string)
| Uuid (u : UUID).

Definition choice : Type := (choice_value * string)%type.

(** [forms.ChoiceField(choices=..., required=..., initial=...)] *)
Record ChoiceField : Type := {
  choices : list choice;
  required : bool;
  initial : choice;
}.

Section Clock.

Variable now : datetime.

(** The rows of the [SubscriptionPlan] table, in the order the query
    returns them. *)
Variable objects : list SubscriptionPlan.

(** [SubscriptionPlan.objects.filter(customer_agreement=instance,
    is_active=True, start_date__lte=now, expiration_date__gte=now)] *)
Definition matches (instance : CustomerAgreement)
           (plan : SubscriptionPlan) : bool :=
  (customer_agreement_id plan =? pk instance)
  && Bool.eqb (is_active plan) true
  && (start_date plan <=? now)
  && (expiration_date plan >=? now).

(** [populate_subscription_for_auto_applied_licenses_choices]: the field
    stored under ['subscription_for_auto_applied_licenses']. *)
Definition populate_subscription_for_auto_applied_licenses_choices
           (instance : CustomerAgreement) : ChoiceField :=
  let active_plans := filter (matches instance) objects in
  let current_plan := auto_applicable_subscription instance in
  let empty_choice := (Text "", "------") in
  let choices :=
    ([empty_choice]
       ++ map (fun plan => (Uuid (uuid plan), title plan)) active_plans)%list
  in
  {| choices := choices;
     required := false;
     initial :=
       match current_plan with
       | None => empty_choice
       | Some plan =>
           if negb (truthy plan) then empty_choice
           else (Uuid (uuid plan), title plan)
       end |}.

(** [__init__]: the field is repopulated only for an existing instance;
    [None] stands for the hidden field declared on the class. *)
Definition init (instance : option CustomerAgreement)
  : option ChoiceField :=
  match instance with
  | Some agreement =>
      Some (populate_subscription_for_auto_applied_licenses_choices
              agreement)
  | None => None
  end.

End Clock.

End CustomerAgreementAdminForm.

(* ================================================================== *)
(** ** Verdicts *)

(** The call returned [True] and left no error. *)
Definition accepts (r : outcome * ErrorDict) : bool :=
  match r with
  | (Returned true, []) => true
  | _ => false
  end.

(** The call returned [False] with one error, on [field]. *)
Definition rejects_on (field : string) (r : outcome * ErrorDict) : bool :=
  match r with
  | (Returned false, [(f, _)]) => String.eqb f field
  | _ => false
  end.

(** A rule that falls through to the next statement without an error. *)
Definition passes (rule : stmt unit) : bool :=
  match rule [] with
  | (Normal _, []) => true
  | _ => false
  end.

(** The call raised instead of returning. *)
Definition raises (r : outcome * ErrorDict) : bool :=
  match r with
  | (Raised _, _) => true
  | _ => false
  end.

(* ================================================================== *)
(** ** Relations the rules dereference *)




(* ================================================================== *)
(** ** Required relations *)

(** Some error is reported on [field]. *)
Definition reports (field : string) (errors : ErrorDict) : bool :=
  existsb (fun error => String.eqb (fst error) field) errors.

(** Modelled from the spec: [models.py] is absent. The data model of the
    specification gives the customer agreement of a plan, the plan type of
    a product, the prior plan of a renewal and the two dates of a renewal as
    plain attributes, not as nullable ones. For a required field of the
    model Django's base validation reports a missing value with an error on
    that field, and a product read from the table has its plan type. The
    three predicates say that the errors of the base validation account in
    this way for what is missing on a form. *)
Definition plan_requirements_enforced (MIN_NUM_LICENSES : Z)
           (self : SubscriptionPlanForm.form) : bool :=
  (negb (is_None (SubscriptionPlanForm.cleaned_customer_agreement self))
   || reports "customer_agreement"
              (SubscriptionPlanForm.base_errors MIN_NUM_LICENSES self))
  && match SubscriptionPlanForm.cleaned_product self with
     | Some product => negb (is_None (plan_type product))
     | None => true
     end.

Definition renewal_requirements_enforced
           (self : SubscriptionPlanRenewalForm.form) : bool :=
  (negb (is_None (SubscriptionPlanRenewalForm.cleaned_effective_date self))
   || reports "effective_date"
              (SubscriptionPlanRenewalForm.field_errors self))
  && (negb (is_None
              (SubscriptionPlanRenewalForm.cleaned_renewed_expiration_date
                 self))
      || reports "renewed_expiration_date"
                 (SubscriptionPlanRenewalForm.field_errors self))
  && (negb (is_None
              (prior_subscription_plan
                 (SubscriptionPlanRenewalForm.instance self)))
      || reports "prior_subscription_plan"
                 (SubscriptionPlanRenewalForm.field_errors self)).

Definition product_requirements_enforced (self : ProductForm.form) : bool :=
  negb (is_None (plan_type (ProductForm.instance self)))
  || reports "plan_type" (ProductForm.field_errors self).

(* ================================================================== *)
(** ** The rule lists of the specification

    Section 4.1 of the specification words each operation as an ordered list
    of rules, each naming the field it rejects on, evaluated until the first
    one that fails. These definitions follow that wording, each rule with
    the message the source gives it; the properties below compare them with
    the embedded methods. *)

Module Documented.

Record rule (candidate : Type) : Type := {
  fails : candidate -> bool;
  field : string;
  message : string;
}.
Arguments fails {candidate} r c.
Arguments field {candidate} r.
Arguments message {candidate} r.





End Documented.


(* ================================================================== *)
(** ** Forms around another record *)

(** The form with [self.instance] replaced and everything else as it is:
    [changed_data], which Django derives from the instance the form was
    bound to, the cleaned data and the errors of the base validation are
    those of [self]. *)
Definition with_instance (self : SubscriptionPlanForm.form)
           (other : SubscriptionPlan) : SubscriptionPlanForm.form :=
  {| SubscriptionPlanForm.data_num_licenses :=
       SubscriptionPlanForm.data_num_licenses self;
     SubscriptionPlanForm.other_field_errors :=
       SubscriptionPlanForm.other_field_errors self;
     SubscriptionPlanForm.changed_data :=
       SubscriptionPlanForm.changed_data self;
     SubscriptionPlanForm.cleaned_customer_agreement :=
       SubscriptionPlanForm.cleaned_customer_agreement self;
     SubscriptionPlanForm.cleaned_enterprise_catalog_uuid :=
       SubscriptionPlanForm.cleaned_enterprise_catalog_uuid self;
     SubscriptionPlanForm.cleaned_product :=
       SubscriptionPlanForm.cleaned_product self;
     SubscriptionPlanForm.cleaned_salesforce_opportunity_id :=
       SubscriptionPlanForm.cleaned_salesforce_opportunity_id self;
     SubscriptionPlanForm.instance := other |}.

(** The same renewal submission with another prior plan. *)
Definition with_prior (self : SubscriptionPlanRenewalForm.form)
           (prior : option SubscriptionPlan)
  : SubscriptionPlanRenewalForm.form :=
  {| SubscriptionPlanRenewalForm.field_errors :=
       SubscriptionPlanRenewalForm.field_errors self;
     SubscriptionPlanRenewalForm.cleaned_effective_date :=
       SubscriptionPlanRenewalForm.cleaned_effective_date self;
     SubscriptionPlanRenewalForm.cleaned_renewed_expiration_date :=
       SubscriptionPlanRenewalForm.cleaned_renewed_expiration_date self;
     SubscriptionPlanRenewalForm.instance :=
       {| prior_subscription_plan := prior |} |}.

(** The (field, message) pairs the rules of [SubscriptionPlanForm.is_valid]
    pass to [add_error], in source order. *)
Definition plan_rejections (MAX_NUM_LICENSES : Z) : ErrorDict :=
  [ ("enterprise_catalog_uuid",
     "The subscription must have an enterprise catalog uuid from itself or its customer agreement");
    ("num_licenses",
     "Non-test subscriptions may not have more than "
       ++ str_int MAX_NUM_LICENSES ++ " licenses");
    ("revoke_max_percentage", "Must be a valid percentage (0-100).");
    ("product", "You must specify a product.");
    ("salesforce_opportunity_id",
     "You must specify Salesforce ID for selected product.") ].

(* ================================================================== *)
(** ** Sample records *)

Module Sample.

Definition plan : SubscriptionPlan :=
  {| uuid := 7%N;
     title := "Pilot";
     customer_agreement_id := 1;
     is_active := true;
     start_date := 100;
     expiration_date := 200;
     for_internal_use_only := false;
     is_revocation_cap_enabled := true;
     revoke_max_percentage := 50 |}.

Definition expired_plan : SubscriptionPlan :=
  {| uuid := 8%N;
     title := "Last year";
     customer_agreement_id := 1;
     is_active := true;
     start_date := 10;
     expiration_date := 90;
     for_internal_use_only := false;
     is_revocation_cap_enabled := false;
     revoke_max_percentage := 0 |}.

Definition other_plan : SubscriptionPlan :=
  {| uuid := 9%N;
     title := "Elsewhere";
     customer_agreement_id := 2;
     is_active := true;
     start_date := 100;
     expiration_date := 200;
     for_internal_use_only := false;
     is_revocation_cap_enabled := false;
     revoke_max_percentage := 0 |}.

Definition agreement : CustomerAgreement :=
  {| pk := 1;
     default_enterprise_catalog_uuid := None;
     auto_applicable_subscription := Some plan |}.

Definition strict : PlanType :=
  {| sf_id_required := true; ns_id_required := true |}.

Definition product : Product :=
  {| plan_type := Some strict; netsuite_id := Some "" |}.

Definition untyped_product : Product :=
  {| plan_type := None; netsuite_id := Some "NS-1" |}.

(** A plan form with a clean base validation. *)
Definition plan_form (licenses percentage : Z) (changed : list string)
           (linked : option CustomerAgreement) (chosen : option Product)
           (salesforce : option string) : SubscriptionPlanForm.form :=
  {| SubscriptionPlanForm.data_num_licenses := Field.Whole licenses;
     SubscriptionPlanForm.other_field_errors := [];
     SubscriptionPlanForm.changed_data := changed;
     SubscriptionPlanForm.cleaned_customer_agreement := linked;
     SubscriptionPlanForm.cleaned_enterprise_catalog_uuid := None;
     SubscriptionPlanForm.cleaned_product := chosen;
     SubscriptionPlanForm.cleaned_salesforce_opportunity_id := salesforce;
     SubscriptionPlanForm.instance :=
       {| uuid := 7%N;
          title := "Pilot";
          customer_agreement_id := 1;
          is_active := true;
          start_date := 100;
          expiration_date := 200;
          for_internal_use_only := false;
          is_revocation_cap_enabled := true;
          revoke_max_percentage := percentage |} |}.

Definition renewal_form (effective renewed : datetime)
           (prior : option SubscriptionPlan)
  : SubscriptionPlanRenewalForm.form :=
  {| SubscriptionPlanRenewalForm.field_errors := [];
     SubscriptionPlanRenewalForm.cleaned_effective_date := Some effective;
     SubscriptionPlanRenewalForm.cleaned_renewed_expiration_date :=
       Some renewed;
     SubscriptionPlanRenewalForm.instance :=
       {| prior_subscription_plan := prior |} |}.

Definition product_form (instance : Product) : ProductForm.form :=
  {| ProductForm.field_errors := []; ProductForm.instance := instance |}.



End Sample.

(* ================================================================== *)
(** * Properties *)

Ltac run :=
  cbv beta iota zeta delta
      [call bind ret return_ raise add_error when getattr lt get_default
       Field.is_valid passes accepts rejects_on raises
       SubscriptionPlanForm.is_valid SubscriptionPlanForm.rules
       SubscriptionPlanForm.super_is_valid
       SubscriptionPlanForm.check_enterprise_catalog_uuid
       SubscriptionPlanForm.check_num_licenses
       SubscriptionPlanForm.check_revoke_max_percentage
       SubscriptionPlanForm.check_product
       SubscriptionPlanForm.check_salesforce_opportunity_id
       SubscriptionPlanRenewalForm.is_valid ProductForm.is_valid
       truthy Truthy_option Truthy_UUID Truthy_Product Truthy_str
       Truthy_SubscriptionPlan is_None app negb andb orb fst snd] in *.

(** A condition that is not itself a conditional. *)
Ltac atomic c :=
  lazymatch c with
  | context [if _ then _ else _] => fail
  | context [match _ with Some _ => _ | None => _ end] => fail
  | _ => idtac
  end.

Ltac cases :=
  repeat match goal with
    | |- context [if ?c then _ else _] => atomic c; destruct c eqn:?
    | |- context [match ?o with Some _ => _ | None => _ end] =>
        atomic o; destruct o eqn:?
    end.

Ltac finish :=
  try solve
      [ repeat split; intros;
        first [ discriminate | reflexivity | congruence | lia
              | intuition (discriminate || congruence || lia) ] ].

(** A rule that passes hands an untouched error dictionary to the rest. *)
Lemma bind_passes {B} (rule : stmt unit) (k : unit -> stmt B) :
  passes rule = true -> bind rule k [] = k tt [].
Proof.
  unfold passes, bind.
  destruct (rule []) as [[[] | b | e] [| err errs]];
    intros H; try discriminate H; reflexivity.
Qed.

Section SubscriptionPlanFormFacts.

Variables MIN_NUM_LICENSES MAX_NUM_LICENSES : Z.

(** With a clean base validation the call is the run of the rules. *)
Lemma is_valid_rules (self : SubscriptionPlanForm.form) :
  SubscriptionPlanForm.base_errors MIN_NUM_LICENSES self = [] ->
  SubscriptionPlanForm.is_valid MIN_NUM_LICENSES MAX_NUM_LICENSES self [] =
  SubscriptionPlanForm.rules MIN_NUM_LICENSES MAX_NUM_LICENSES self [].
Proof.
  intros Hbase.
  unfold SubscriptionPlanForm.is_valid, SubscriptionPlanForm.super_is_valid,
    Field.is_valid, bind.
  rewrite Hbase. reflexivity.
Qed.

(** With an error from the base validation the call stops there. *)
Lemma is_valid_base_failure (self : SubscriptionPlanForm.form) :
  SubscriptionPlanForm.base_errors MIN_NUM_LICENSES self <> [] ->
  call (SubscriptionPlanForm.is_valid MIN_NUM_LICENSES MAX_NUM_LICENSES self)
  = (Returned false, SubscriptionPlanForm.base_errors MIN_NUM_LICENSES self).
Proof.
  intros Hbase.
  unfold call, SubscriptionPlanForm.is_valid,
    SubscriptionPlanForm.super_is_valid, Field.is_valid, bind.
  simpl.
  destruct (SubscriptionPlanForm.base_errors MIN_NUM_LICENSES self);
    [congruence | reflexivity].
Qed.

(** C6. When the customer-agreement link changed on the submission, the
    call rejects on [enterprise_catalog_uuid] exactly when neither the form
    nor the linked agreement carries a catalog uuid; when the link did not
    change the call never rejects on that field. *)
Theorem enterprise_catalog_uuid_rule (self : SubscriptionPlanForm.form) :
  SubscriptionPlanForm.base_errors MIN_NUM_LICENSES self = [] ->
  (forall agreement,
      contains "customer_agreement" (SubscriptionPlanForm.changed_data self)
      = true ->
      SubscriptionPlanForm.cleaned_customer_agreement self = Some agreement ->
      (rejects_on "enterprise_catalog_uuid"
         (call (SubscriptionPlanForm.is_valid
                  MIN_NUM_LICENSES MAX_NUM_LICENSES self)) = true
       <-> SubscriptionPlanForm.cleaned_enterprise_catalog_uuid self = None
           /\ default_enterprise_catalog_uuid agreement = None))
  /\ (contains "customer_agreement" (SubscriptionPlanForm.changed_data self)
      = false ->
      rejects_on "enterprise_catalog_uuid"
        (call (SubscriptionPlanForm.is_valid
                 MIN_NUM_LICENSES MAX_NUM_LICENSES self)) = false).
Proof.
  intros Hbase. unfold call. rewrite (is_valid_rules _ Hbase).
  split.
  - intros agreement Hchanged Hlinked. run. rewrite Hchanged, Hlinked.
    destruct (default_enterprise_catalog_uuid agreement),
      (SubscriptionPlanForm.cleaned_enterprise_catalog_uuid self);
      cases; finish.
  - intros Hchanged. run. rewrite Hchanged.
    cases; finish.
Qed.

(** C2. For a plan that is not for internal use and passed the catalog
    rule, the call rejects on [num_licenses] exactly when the number
    exceeds [MAX_NUM_LICENSES]; for an internal plan over the maximum the
    same rule adds no error and control reaches the rules that follow. *)
Theorem num_licenses_cap (self : SubscriptionPlanForm.form) (n : Z) :
  SubscriptionPlanForm.base_errors MIN_NUM_LICENSES self = [] ->
  SubscriptionPlanForm.cleaned_num_licenses MIN_NUM_LICENSES self = Some n ->
  passes (SubscriptionPlanForm.check_enterprise_catalog_uuid self) = true ->
  (for_internal_use_only (SubscriptionPlanForm.instance self) = false ->
   (rejects_on "num_licenses"
      (call (SubscriptionPlanForm.is_valid
               MIN_NUM_LICENSES MAX_NUM_LICENSES self)) = true
    <-> n > MAX_NUM_LICENSES))
  /\ (for_internal_use_only (SubscriptionPlanForm.instance self) = true ->
      n > MAX_NUM_LICENSES ->
      rejects_on "num_licenses"
        (call (SubscriptionPlanForm.is_valid
                 MIN_NUM_LICENSES MAX_NUM_LICENSES self)) = false
      /\ passes (SubscriptionPlanForm.check_num_licenses
                   MIN_NUM_LICENSES MAX_NUM_LICENSES self) = true
      /\ call (SubscriptionPlanForm.is_valid
                 MIN_NUM_LICENSES MAX_NUM_LICENSES self)
         = call (bind (SubscriptionPlanForm.check_revoke_max_percentage self)
                  (fun _ =>
                   bind (SubscriptionPlanForm.check_product self)
                     (fun _ =>
                      bind (SubscriptionPlanForm.check_salesforce_opportunity_id
                              self)
                        (fun _ => return_ true))))).
Proof.
  intros Hbase Hn Hpass. unfold call. rewrite (is_valid_rules _ Hbase).
  unfold SubscriptionPlanForm.rules. rewrite (bind_passes _ _ Hpass).
  split.
  - intros Hinternal. run. rewrite Hn, Hinternal.
    destruct (n >? MAX_NUM_LICENSES) eqn:Hover; [finish |].
    cases; finish.
  - intros Hinternal Hover.
    run. rewrite Hn, Hinternal.
    destruct (n >? MAX_NUM_LICENSES); cases; finish.
Qed.

(** C3. With the revocation cap enabled, and the two earlier rules passed,
    the call rejects on [revoke_max_percentage] exactly when the value
    exceeds 100: no value in [0,100], and no negative value, is rejected
    on that field. *)
Theorem revoke_max_percentage_cap (self : SubscriptionPlanForm.form) :
  SubscriptionPlanForm.base_errors MIN_NUM_LICENSES self = [] ->
  passes (SubscriptionPlanForm.check_enterprise_catalog_uuid self) = true ->
  passes (SubscriptionPlanForm.check_num_licenses
            MIN_NUM_LICENSES MAX_NUM_LICENSES self) = true ->
  is_revocation_cap_enabled (SubscriptionPlanForm.instance self) = true ->
  (rejects_on "revoke_max_percentage"
     (call (SubscriptionPlanForm.is_valid
              MIN_NUM_LICENSES MAX_NUM_LICENSES self)) = true
   <-> revoke_max_percentage (SubscriptionPlanForm.instance self) > 100)
  /\ (0 <= revoke_max_percentage (SubscriptionPlanForm.instance self) <= 100 ->
      rejects_on "revoke_max_percentage"
        (call (SubscriptionPlanForm.is_valid
                 MIN_NUM_LICENSES MAX_NUM_LICENSES self)) = false)
  /\ (revoke_max_percentage (SubscriptionPlanForm.instance self) < 0 ->
      rejects_on "revoke_max_percentage"
        (call (SubscriptionPlanForm.is_valid
                 MIN_NUM_LICENSES MAX_NUM_LICENSES self)) = false).
Proof.
  intros Hbase Hcatalog Hlicenses Hcap.
  unfold call. rewrite (is_valid_rules _ Hbase).
  unfold SubscriptionPlanForm.rules.
  rewrite (bind_passes _ _ Hcatalog), (bind_passes _ _ Hlicenses).
  clear Hcatalog Hlicenses. run. rewrite Hcap.
  destruct (revoke_max_percentage (SubscriptionPlanForm.instance self)
            >? 100) eqn:Hover.
  - finish.
  - cases; finish.
Qed.

End SubscriptionPlanFormFacts.

Section SubscriptionPlanFormMinimum.

Variables MIN_NUM_LICENSES MAX_NUM_LICENSES : Z.

(** C9. A form the call accepts carries a whole number of licenses that
    is at least [MIN_NUM_LICENSES]; a number below the minimum is turned
    down by the base validation, on [num_licenses], and the call returns
    with the errors of the base validation alone. *)
Theorem num_licenses_minimum (self : SubscriptionPlanForm.form) :
  (accepts (call (SubscriptionPlanForm.is_valid
                    MIN_NUM_LICENSES MAX_NUM_LICENSES self)) = true ->
   exists n,
     SubscriptionPlanForm.data_num_licenses self = Field.Whole n
     /\ SubscriptionPlanForm.cleaned_num_licenses MIN_NUM_LICENSES self
        = Some n
     /\ MIN_NUM_LICENSES <= n)
  /\ (forall n,
         SubscriptionPlanForm.data_num_licenses self = Field.Whole n ->
         n < MIN_NUM_LICENSES ->
         call (SubscriptionPlanForm.is_valid
                 MIN_NUM_LICENSES MAX_NUM_LICENSES self)
         = (Returned false,
            SubscriptionPlanForm.base_errors MIN_NUM_LICENSES self)
         /\ In ("num_licenses",
                "Ensure this value is greater than or equal to "
                  ++ str_int MIN_NUM_LICENSES ++ ".")
               (SubscriptionPlanForm.base_errors MIN_NUM_LICENSES self)).
Proof.
  split.
  - intros Haccepted.
    destruct (SubscriptionPlanForm.base_errors MIN_NUM_LICENSES self)
      as [| err errs] eqn:Hbase.
    + unfold SubscriptionPlanForm.base_errors in Hbase.
      apply app_eq_nil in Hbase. destruct Hbase as [Hfield _].
      unfold Field.field_errors, SubscriptionPlanForm.cleaned_num_licenses,
        Field.cleaned_value, Field.clean in *.
      destruct (SubscriptionPlanForm.data_num_licenses self) as [| | n];
        simpl in *; try discriminate Hfield.
      destruct (n <? MIN_NUM_LICENSES) eqn:Hmin; [discriminate Hfield |].
      exists n. repeat split. lia.
    + rewrite is_valid_base_failure in Haccepted
        by (rewrite Hbase; discriminate).
      discriminate Haccepted.
  - intros n Hdata Hbelow.
    assert (Hin : In ("num_licenses",
                      "Ensure this value is greater than or equal to "
                        ++ str_int MIN_NUM_LICENSES ++ ".")
                     (SubscriptionPlanForm.base_errors
                        MIN_NUM_LICENSES self)).
    { unfold SubscriptionPlanForm.base_errors, Field.field_errors,
        Field.clean. rewrite Hdata. simpl.
      replace (n <? MIN_NUM_LICENSES) with true by lia.
      left. reflexivity. }
    split; [| exact Hin].
    apply is_valid_base_failure. intros Hnil. rewrite Hnil in Hin.
    exact Hin.
Qed.

(** C10. On a form that reaches the Salesforce rule with a product whose
    plan type requires the id, only a missing [salesforce_opportunity_id]
    is rejected: any string, the empty one included, is accepted. The
    product form, in contrast, rejects an empty [netsuite_id]. *)
Theorem salesforce_id_absent_only (self : SubscriptionPlanForm.form)
        (product : Product) (the_plan_type : PlanType) :
  SubscriptionPlanForm.base_errors MIN_NUM_LICENSES self = [] ->
  passes (SubscriptionPlanForm.check_enterprise_catalog_uuid self) = true ->
  passes (SubscriptionPlanForm.check_num_licenses
            MIN_NUM_LICENSES MAX_NUM_LICENSES self) = true ->
  passes (SubscriptionPlanForm.check_revoke_max_percentage self) = true ->
  SubscriptionPlanForm.cleaned_product self = Some product ->
  plan_type product = Some the_plan_type ->
  sf_id_required the_plan_type = true ->
  (rejects_on "salesforce_opportunity_id"
     (call (SubscriptionPlanForm.is_valid
              MIN_NUM_LICENSES MAX_NUM_LICENSES self)) = true
   <-> SubscriptionPlanForm.cleaned_salesforce_opportunity_id self = None)
  /\ (forall id,
         SubscriptionPlanForm.cleaned_salesforce_opportunity_id self
         = Some id ->
         accepts (call (SubscriptionPlanForm.is_valid
                          MIN_NUM_LICENSES MAX_NUM_LICENSES self)) = true)
  /\ (SubscriptionPlanForm.cleaned_salesforce_opportunity_id self = Some "" ->
      accepts (call (SubscriptionPlanForm.is_valid
                       MIN_NUM_LICENSES MAX_NUM_LICENSES self)) = true)
  /\ (forall (other : ProductForm.form) (its_plan_type : PlanType),
         ProductForm.field_errors other = [] ->
         plan_type (ProductForm.instance other) = Some its_plan_type ->
         ns_id_required its_plan_type = true ->
         netsuite_id (ProductForm.instance other) = Some "" ->
         rejects_on "netsuite_id" (call (ProductForm.is_valid other))
         = true).
Proof.
  intros Hbase Hcatalog Hlicenses Hrevoke Hproduct Hplan Hrequired.
  unfold call at 1 2 3. rewrite (is_valid_rules _ _ _ Hbase).
  unfold SubscriptionPlanForm.rules.
  rewrite (bind_passes _ _ Hcatalog), (bind_passes _ _ Hlicenses),
    (bind_passes _ _ Hrevoke).
  clear Hcatalog Hlicenses Hrevoke.
  repeat split.
  - run. rewrite Hproduct. simpl. rewrite Hplan, Hrequired.
    destruct (SubscriptionPlanForm.cleaned_salesforce_opportunity_id self);
      finish.
  - run. rewrite Hproduct. simpl. rewrite Hplan, Hrequired.
    destruct (SubscriptionPlanForm.cleaned_salesforce_opportunity_id self);
      finish.
  - intros id Hid. run. rewrite Hproduct. simpl.
    rewrite Hplan, Hrequired, Hid. reflexivity.
  - intros Hid. run. rewrite Hproduct. simpl.
    rewrite Hplan, Hrequired, Hid. reflexivity.
  - intros other its_plan_type Hclean Hits Hns Hempty.
    run. rewrite Hclean. simpl. rewrite Hits, Hns, Hempty. reflexivity.
Qed.

End SubscriptionPlanFormMinimum.

Section RenewalFacts.

Variable now : datetime.

(** C1. A renewal whose base validation passed is accepted exactly when
    [now <= effective_date <= renewed_expiration_date] and the prior plan
    has expired by the effective date. Otherwise the single error is that
    of the earliest rule that fails: an effective date in the past, then
    an expiration before the effective date, then an effective date
    before the prior plan expires. *)
Theorem renewal_dates (self : SubscriptionPlanRenewalForm.form)
        (effective renewed : datetime) (prior : SubscriptionPlan) :
  SubscriptionPlanRenewalForm.field_errors self = [] ->
  SubscriptionPlanRenewalForm.cleaned_effective_date self = Some effective ->
  SubscriptionPlanRenewalForm.cleaned_renewed_expiration_date self
  = Some renewed ->
  prior_subscription_plan (SubscriptionPlanRenewalForm.instance self)
  = Some prior ->
  (accepts (call (SubscriptionPlanRenewalForm.is_valid now self)) = true
   <-> now <= effective <= renewed /\ expiration_date prior <= effective)
  /\ (effective < now ->
      call (SubscriptionPlanRenewalForm.is_valid now self)
      = (Returned false,
         [("effective_date",
           "A subscription renewal can not be scheduled to become effective in the past.")]))
  /\ (now <= effective -> renewed < effective ->
      call (SubscriptionPlanRenewalForm.is_valid now self)
      = (Returned false,
         [("renewed_expiration_date",
           "A subscription renewal can not expire before it becomes effective.")]))
  /\ (now <= effective <= renewed -> effective < expiration_date prior ->
      call (SubscriptionPlanRenewalForm.is_valid now self)
      = (Returned false,
         [("effective_date",
           "A subscription renewal can not take effect before a subscription expires.")])).
Proof.
  intros Hbase Heffective Hrenewed Hprior.
  run. rewrite Hbase, Heffective, Hrenewed, Hprior. simpl.
  destruct (effective <? now) eqn:Hpast; simpl.
  { finish. }
  destruct (renewed <? effective) eqn:Horder; simpl.
  { finish. }
  destruct (effective <? expiration_date prior) eqn:Hearly; simpl; finish.
Qed.

End RenewalFacts.

(** C7. A product whose base validation passed is rejected on
    [netsuite_id] exactly when its plan type requires the id and the id is
    missing or empty; in every other case it is accepted. *)
Theorem netsuite_id_rule (self : ProductForm.form) (the_plan_type : PlanType) :
  ProductForm.field_errors self = [] ->
  plan_type (ProductForm.instance self) = Some the_plan_type ->
  (rejects_on "netsuite_id" (call (ProductForm.is_valid self)) = true
   <-> ns_id_required the_plan_type = true
       /\ (netsuite_id (ProductForm.instance self) = None
           \/ netsuite_id (ProductForm.instance self) = Some ""))
  /\ (rejects_on "netsuite_id" (call (ProductForm.is_valid self)) = false ->
      accepts (call (ProductForm.is_valid self)) = true).
Proof.
  intros Hbase Hplan. run. rewrite Hbase. simpl. rewrite Hplan.
  destruct (ns_id_required the_plan_type);
    destruct (netsuite_id (ProductForm.instance self)) as [id |]; simpl.
  - destruct (String.eqb_spec id ""); simpl.
    + subst id. finish.
    + split; [split |]; intros; try discriminate; try reflexivity.
      destruct H as [_ [H | H]]; congruence.
  - finish.
  - finish.
  - finish.
Qed.

Section AutoApplyFacts.

Variable now : datetime.
Variable objects : list SubscriptionPlan.

(** C5. The choices are one blank option followed by one (uuid, title)
    pair for each plan of the table that is linked to the agreement, active
    and running at [now], and for no other plan; the initial choice is the
    pair of the agreement's auto-applicable plan when it has one, and the
    blank option otherwise. *)
Theorem auto_apply_choices (agreement : CustomerAgreement) :
  (exists plans,
      CustomerAgreementAdminForm.choices
        (CustomerAgreementAdminForm.populate_subscription_for_auto_applied_licenses_choices
           now objects agreement)
      = (CustomerAgreementAdminForm.Text "", "------")
          :: map (fun plan =>
                    (CustomerAgreementAdminForm.Uuid (uuid plan), title plan))
                 plans
      /\ forall plan,
        In plan plans
        <-> In plan objects
            /\ customer_agreement_id plan = pk agreement
            /\ is_active plan = true
            /\ start_date plan <= now <= expiration_date plan)
  /\ (forall current,
         auto_applicable_subscription agreement = Some current ->
         CustomerAgreementAdminForm.initial
           (CustomerAgreementAdminForm.populate_subscription_for_auto_applied_licenses_choices
              now objects agreement)
         = (CustomerAgreementAdminForm.Uuid (uuid current), title current))
  /\ (auto_applicable_subscription agreement = None ->
      CustomerAgreementAdminForm.initial
        (CustomerAgreementAdminForm.populate_subscription_for_auto_applied_licenses_choices
           now objects agreement)
      = (CustomerAgreementAdminForm.Text "", "------")).
Proof.
  split; [| split].
  - exists (filter (CustomerAgreementAdminForm.matches now agreement)
                   objects).
    split; [reflexivity |].
    intros plan. rewrite filter_In.
    unfold CustomerAgreementAdminForm.matches.
    rewrite !andb_true_iff, Z.eqb_eq, Bool.eqb_true_iff, Z.leb_le,
      Z.geb_le.
    intuition lia.
  - intros current Hcurrent.
    unfold
      CustomerAgreementAdminForm.populate_subscription_for_auto_applied_licenses_choices.
    simpl. rewrite Hcurrent. reflexivity.
  - intros Hnone.
    unfold
      CustomerAgreementAdminForm.populate_subscription_for_auto_applied_licenses_choices.
    simpl. rewrite Hnone. reflexivity.
Qed.

End AutoApplyFacts.




Ltac required :=
  cbv beta iota zeta delta
      [plan_requirements_enforced renewal_requirements_enforced
       product_requirements_enforced reports existsb] in *.


(* ================================================================== *)
(** * The properties on sample records *)

Lemma enterprise_catalog_uuid_rule_witness :
  SubscriptionPlanForm.base_errors
    1 (Sample.plan_form 10 50 ["customer_agreement"] (Some Sample.agreement)
                        (Some Sample.product) (Some "006-A")) = []
  /\ rejects_on "enterprise_catalog_uuid"
       (call (SubscriptionPlanForm.is_valid
                1 1000
                (Sample.plan_form 10 50 ["customer_agreement"]
                                  (Some Sample.agreement)
                                  (Some Sample.product) (Some "006-A"))))
     = true.
Proof.
  split; [reflexivity |].
  destruct (enterprise_catalog_uuid_rule
              1 1000
              (Sample.plan_form 10 50 ["customer_agreement"]
                                (Some Sample.agreement)
                                (Some Sample.product) (Some "006-A")))
    as [Hchanged _]; [reflexivity |].
  apply (Hchanged Sample.agreement); [reflexivity | reflexivity |].
  split; reflexivity.
Defined.

Lemma num_licenses_cap_witness :
  SubscriptionPlanForm.cleaned_num_licenses
    1 (Sample.plan_form 1001 50 [] None (Some Sample.product) (Some "006-A"))
  = Some 1001
  /\ rejects_on "num_licenses"
       (call (SubscriptionPlanForm.is_valid
                1 1000
                (Sample.plan_form 1001 50 [] None (Some Sample.product)
                                  (Some "006-A"))))
     = true.
Proof.
  split; [reflexivity |].
  destruct (num_licenses_cap
              1 1000
              (Sample.plan_form 1001 50 [] None (Some Sample.product)
                                (Some "006-A"))
              1001)
    as [Hpublic _]; [reflexivity | reflexivity | reflexivity |].
  apply Hpublic; [reflexivity | lia].
Defined.

Lemma revoke_max_percentage_cap_witness :
  is_revocation_cap_enabled
    (SubscriptionPlanForm.instance
       (Sample.plan_form 10 101 [] None (Some Sample.product) (Some "006-A")))
  = true
  /\ rejects_on "revoke_max_percentage"
       (call (SubscriptionPlanForm.is_valid
                1 1000
                (Sample.plan_form 10 101 [] None (Some Sample.product)
                                  (Some "006-A"))))
     = true.
Proof.
  split; [reflexivity |].
  destruct (revoke_max_percentage_cap
              1 1000
              (Sample.plan_form 10 101 [] None (Some Sample.product)
                                (Some "006-A")))
    as [Hover _]; [reflexivity | reflexivity | reflexivity | reflexivity |].
  apply Hover. simpl. lia.
Defined.

Lemma num_licenses_minimum_witness :
  call (SubscriptionPlanForm.is_valid
          5 1000
          (Sample.plan_form 4 50 ["customer_agreement"] None None None))
  = (Returned false,
     [("num_licenses", "Ensure this value is greater than or equal to 5.")]).
Proof.
  destruct (num_licenses_minimum
              5 1000
              (Sample.plan_form 4 50 ["customer_agreement"] None None None))
    as [_ Hbelow].
  destruct (Hbelow 4) as [Hcall _]; [reflexivity | lia |].
  exact Hcall.
Defined.

Lemma salesforce_id_absent_only_witness :
  sf_id_required Sample.strict = true
  /\ accepts
       (call (SubscriptionPlanForm.is_valid
                1 1000
                (Sample.plan_form 10 50 [] None (Some Sample.product)
                                  (Some ""))))
     = true.
Proof.
  split; [reflexivity |].
  destruct (salesforce_id_absent_only
              1 1000
              (Sample.plan_form 10 50 [] None (Some Sample.product) (Some ""))
              Sample.product Sample.strict)
    as [_ [_ [Hempty _]]];
    [reflexivity | reflexivity | reflexivity | reflexivity | reflexivity
     | reflexivity | reflexivity |].
  apply Hempty. reflexivity.
Defined.

Lemma renewal_dates_witness :
  accepts (call (SubscriptionPlanRenewalForm.is_valid
                   150 (Sample.renewal_form 200 500 (Some Sample.plan))))
  = true
  /\ call (SubscriptionPlanRenewalForm.is_valid
             150 (Sample.renewal_form 120 110 (Some Sample.plan)))
     = (Returned false,
        [("effective_date",
          "A subscription renewal can not be scheduled to become effective in the past.")]).
Proof.
  split.
  - destruct (renewal_dates 150 (Sample.renewal_form 200 500 (Some Sample.plan))
                            200 500 Sample.plan)
      as [Haccepted _];
      [reflexivity | reflexivity | reflexivity | reflexivity |].
    apply Haccepted. simpl. lia.
  - destruct (renewal_dates 150 (Sample.renewal_form 120 110 (Some Sample.plan))
                            120 110 Sample.plan)
      as [_ [Hpast _]];
      [reflexivity | reflexivity | reflexivity | reflexivity |].
    apply Hpast. lia.
Defined.

Lemma netsuite_id_rule_witness :
  ProductForm.field_errors (Sample.product_form Sample.product) = []
  /\ rejects_on "netsuite_id"
       (call (ProductForm.is_valid (Sample.product_form Sample.product)))
     = true.
Proof.
  split; [reflexivity |].
  destruct (netsuite_id_rule (Sample.product_form Sample.product) Sample.strict)
    as [Hrejected _]; [reflexivity | reflexivity |].
  apply Hrejected. split; [reflexivity | right; reflexivity].
Defined.

Lemma auto_apply_choices_witness :
  CustomerAgreementAdminForm.initial
    (CustomerAgreementAdminForm.populate_subscription_for_auto_applied_licenses_choices
       150 [Sample.expired_plan; Sample.plan; Sample.other_plan]
       Sample.agreement)
  = (CustomerAgreementAdminForm.Uuid 7%N, "Pilot").
Proof.
  destruct (auto_apply_choices
              150 [Sample.expired_plan; Sample.plan; Sample.other_plan]
              Sample.agreement)
    as [_ [Hcurrent _]].
  apply (Hcurrent Sample.plan). reflexivity.
Defined.




(* ================================================================== *)
(** * Further properties of the forms *)

(** A clean base validation leaves a whole number of licenses that is at
    least the minimum in [cleaned_data]. *)
Lemma clean_base_num_licenses (MIN_NUM_LICENSES : Z)
      (self : SubscriptionPlanForm.form) :
  SubscriptionPlanForm.base_errors MIN_NUM_LICENSES self = [] ->
  exists n,
    SubscriptionPlanForm.cleaned_num_licenses MIN_NUM_LICENSES self = Some n
    /\ MIN_NUM_LICENSES <= n.
Proof.
  intros Hbase.
  unfold SubscriptionPlanForm.base_errors in Hbase.
  apply app_eq_nil in Hbase. destruct Hbase as [Hfield _].
  unfold Field.field_errors, SubscriptionPlanForm.cleaned_num_licenses,
    Field.cleaned_value, Field.clean in *.
  destruct (SubscriptionPlanForm.data_num_licenses self) as [| | n];
    simpl in *; try discriminate Hfield.
  destruct (n <? MIN_NUM_LICENSES) eqn:Hmin; [discriminate Hfield |].
  exists n. split; [reflexivity | lia].
Qed.

(** X5. When the base validation reports an error, each [is_valid] returns
    [False] with exactly the errors of the base validation: no rule of the
    override runs, so nothing is added and nothing is raised, whatever
    relation is missing. *)
Theorem base_failure_short_circuits :
  (forall (MIN_NUM_LICENSES MAX_NUM_LICENSES : Z)
          (self : SubscriptionPlanForm.form),
      SubscriptionPlanForm.base_errors MIN_NUM_LICENSES self <> [] ->
      call (SubscriptionPlanForm.is_valid
              MIN_NUM_LICENSES MAX_NUM_LICENSES self)
      = (Returned false,
         SubscriptionPlanForm.base_errors MIN_NUM_LICENSES self))
  /\ (forall (now : datetime) (self : SubscriptionPlanRenewalForm.form),
         SubscriptionPlanRenewalForm.field_errors self <> [] ->
         call (SubscriptionPlanRenewalForm.is_valid now self)
         = (Returned false, SubscriptionPlanRenewalForm.field_errors self))
  /\ (forall self : ProductForm.form,
         ProductForm.field_errors self <> [] ->
         call (ProductForm.is_valid self)
         = (Returned false, ProductForm.field_errors self)).
Proof.
  split; [| split].
  - intros MIN_NUM_LICENSES MAX_NUM_LICENSES self Hbase.
    unfold call, SubscriptionPlanForm.is_valid,
      SubscriptionPlanForm.super_is_valid, Field.is_valid, bind.
    simpl.
    destruct (SubscriptionPlanForm.base_errors MIN_NUM_LICENSES self);
      [congruence | reflexivity].
  - intros now self Hbase. run.
    destruct (SubscriptionPlanRenewalForm.field_errors self);
      [congruence | reflexivity].
  - intros self Hbase. run.
    destruct (ProductForm.field_errors self); [congruence | reflexivity].
Qed.

(** X1. On a bound form, whenever an [is_valid] returns, it returns [True]
    exactly when it leaves [errors] empty. *)
Theorem returns_true_iff_no_errors :
  (forall (MIN_NUM_LICENSES MAX_NUM_LICENSES : Z)
          (self : SubscriptionPlanForm.form) (b : bool),
      fst (call (SubscriptionPlanForm.is_valid
                   MIN_NUM_LICENSES MAX_NUM_LICENSES self)) = Returned b ->
      (b = true
       <-> snd (call (SubscriptionPlanForm.is_valid
                        MIN_NUM_LICENSES MAX_NUM_LICENSES self)) = []))
  /\ (forall (now : datetime) (self : SubscriptionPlanRenewalForm.form)
             (b : bool),
         fst (call (SubscriptionPlanRenewalForm.is_valid now self))
         = Returned b ->
         (b = true
          <-> snd (call (SubscriptionPlanRenewalForm.is_valid now self)) = []))
  /\ (forall (self : ProductForm.form) (b : bool),
         fst (call (ProductForm.is_valid self)) = Returned b ->
         (b = true <-> snd (call (ProductForm.is_valid self)) = [])).
Proof.
  split; [| split].
  - intros MIN_NUM_LICENSES MAX_NUM_LICENSES self b.
    destruct (SubscriptionPlanForm.base_errors MIN_NUM_LICENSES self)
      as [| err errs] eqn:Hbase.
    + unfold call. rewrite (is_valid_rules _ _ _ Hbase).
      run. cases; simpl; intros Hb; inversion Hb; finish.
    + rewrite is_valid_base_failure by (rewrite Hbase; discriminate).
      rewrite Hbase. simpl. intros Hb; inversion Hb; finish.
  - intros now self b. run.
    destruct (SubscriptionPlanRenewalForm.field_errors self); simpl;
      cases; simpl; intros Hb; inversion Hb; finish.
  - intros self b. run.
    destruct (ProductForm.field_errors self); simpl;
      cases; simpl; intros Hb; inversion Hb; finish.
Qed.

(** X2. [SubscriptionPlanForm.is_valid] accepts exactly the forms whose base
    validation is clean, whose changed agreement link comes with an agreement
    and a catalog uuid on either side, whose number of licenses is at least
    the minimum and within the maximum unless the plan is for internal use,
    whose enabled revocation cap is at most 100, and whose product has a plan
    type that does not require a missing Salesforce id. *)
Theorem plan_acceptance (MIN_NUM_LICENSES MAX_NUM_LICENSES : Z)
        (self : SubscriptionPlanForm.form) :
  accepts (call (SubscriptionPlanForm.is_valid
                   MIN_NUM_LICENSES MAX_NUM_LICENSES self)) = true
  <-> SubscriptionPlanForm.base_errors MIN_NUM_LICENSES self = []
      /\ (contains "customer_agreement"
                   (SubscriptionPlanForm.changed_data self) = true ->
          exists agreement,
            SubscriptionPlanForm.cleaned_customer_agreement self
            = Some agreement
            /\ (default_enterprise_catalog_uuid agreement <> None
                \/ SubscriptionPlanForm.cleaned_enterprise_catalog_uuid self
                   <> None))
      /\ (exists n,
             SubscriptionPlanForm.cleaned_num_licenses MIN_NUM_LICENSES self
             = Some n
             /\ MIN_NUM_LICENSES <= n
             /\ (n <= MAX_NUM_LICENSES
                 \/ for_internal_use_only (SubscriptionPlanForm.instance self)
                    = true))
      /\ (is_revocation_cap_enabled (SubscriptionPlanForm.instance self)
          = true ->
          revoke_max_percentage (SubscriptionPlanForm.instance self) <= 100)
      /\ (exists product the_plan_type,
             SubscriptionPlanForm.cleaned_product self = Some product
             /\ plan_type product = Some the_plan_type
             /\ (sf_id_required the_plan_type = true ->
                 SubscriptionPlanForm.cleaned_salesforce_opportunity_id self
                 <> None)).
Proof.
  destruct (SubscriptionPlanForm.base_errors MIN_NUM_LICENSES self)
    as [| err errs] eqn:Hbase.
  - destruct (clean_base_num_licenses _ _ Hbase) as (n & Hn & Hmin).
    unfold call. rewrite (is_valid_rules _ _ _ Hbase).
    run. rewrite Hn. cases; simpl.
    all: split;
      [ intros Hyes; try discriminate Hyes;
        repeat split;
        try (intros; first [discriminate | lia]);
        try (eexists; split; [reflexivity |];
             first [left; congruence | right; congruence]);
        try (exists n; split; [reflexivity |]; split; [exact Hmin |];
             first [left; lia | right; reflexivity]);
        try (eexists; eexists; split; [reflexivity |];
             split; [eassumption |]; intros; congruence)
      | intros (_ & Hlink & (m & Hm & _ & Hcap) & Hrevoke
                & (p' & pt' & Hp & Hpt & Hsf));
        try reflexivity; exfalso;
        first
          [ destruct (Hlink eq_refl) as (a & Ha & [Hd | Hu]); congruence
          | inversion Hm; subst m; destruct Hcap; [lia | congruence]
          | specialize (Hrevoke eq_refl); lia
          | congruence
          | apply Hsf; [congruence | reflexivity] ] ].
  - split.
    + rewrite is_valid_base_failure by (rewrite Hbase; discriminate).
      rewrite Hbase. discriminate.
    + intros (Hnil & _). discriminate Hnil.
Qed.

(** X3. [SubscriptionPlanRenewalForm.is_valid] accepts exactly the forms
    whose base validation is clean, whose two dates and prior plan are
    there, and whose dates satisfy
    [now <= effective_date <= renewed_expiration_date] with the prior plan
    expired by the effective date. *)
Theorem renewal_acceptance (now : datetime)
        (self : SubscriptionPlanRenewalForm.form) :
  accepts (call (SubscriptionPlanRenewalForm.is_valid now self)) = true
  <-> SubscriptionPlanRenewalForm.field_errors self = []
      /\ exists effective renewed prior,
        SubscriptionPlanRenewalForm.cleaned_effective_date self
        = Some effective
        /\ SubscriptionPlanRenewalForm.cleaned_renewed_expiration_date self
           = Some renewed
        /\ prior_subscription_plan (SubscriptionPlanRenewalForm.instance self)
           = Some prior
        /\ now <= effective <= renewed
        /\ expiration_date prior <= effective.
Proof.
  run.
  destruct (SubscriptionPlanRenewalForm.field_errors self) as [| err errs];
    simpl.
  - cases; simpl.
    all: split;
      [ intros Hyes;
        first [ discriminate Hyes
              | split; [reflexivity |];
                eexists; eexists; eexists;
                repeat (split; [reflexivity |]); lia ]
      | intros (_ & effective & renewed & prior & He & Hr & Hp & Horder
                & Hexpired);
        try reflexivity; exfalso;
        first [ congruence
              | inversion He; inversion Hr; inversion Hp; subst; lia
              | inversion He; inversion Hr; subst; lia
              | inversion He; subst; lia ] ].
  - split; [discriminate |]. intros (Hnil & _). discriminate Hnil.
Qed.

(** X4. [ProductForm.is_valid] accepts exactly the forms whose base
    validation is clean and whose product has a plan type that either does
    not require a NetSuite id or comes with a non-empty one. *)
Theorem product_acceptance (self : ProductForm.form) :
  accepts (call (ProductForm.is_valid self)) = true
  <-> ProductForm.field_errors self = []
      /\ exists the_plan_type,
        plan_type (ProductForm.instance self) = Some the_plan_type
        /\ (ns_id_required the_plan_type = true ->
            exists id,
              netsuite_id (ProductForm.instance self) = Some id
              /\ id <> "").
Proof.
  run.
  destruct (ProductForm.field_errors self) as [| err errs]; simpl.
  - destruct (plan_type (ProductForm.instance self)) as [pt |] eqn:Hplan;
      simpl.
    + destruct (ns_id_required pt) eqn:Hns; simpl.
      * destruct (netsuite_id (ProductForm.instance self)) as [id |]
          eqn:Hid; simpl.
        -- destruct (String.eqb_spec id ""); simpl.
           ++ split; [discriminate |].
              intros (_ & pt' & Hpt & Hreq). inversion Hpt; subst pt'.
              destruct (Hreq Hns) as (id' & Hid' & Hne). congruence.
           ++ split; [| reflexivity]. intros _. split; [reflexivity |].
              exists pt. split; [reflexivity |]. intros _.
              exists id. split; [reflexivity | assumption].
        -- split; [discriminate |].
           intros (_ & pt' & Hpt & Hreq). inversion Hpt; subst pt'.
           destruct (Hreq Hns) as (id' & Hid' & _). discriminate Hid'.
      * split; [| reflexivity]. intros _. split; [reflexivity |].
        exists pt. split; [reflexivity |]. intros Hreq. congruence.
    + split; [discriminate |]. intros (_ & pt' & Hpt & _). discriminate Hpt.
  - split; [discriminate |]. intros (Hnil & _). discriminate Hnil.
Qed.

(** X6. Widening the configured bounds never turns an accepted plan into a
    rejected one: a form accepted under [MIN_NUM_LICENSES] and
    [MAX_NUM_LICENSES] is accepted under any lower minimum and higher
    maximum. *)
Theorem acceptance_monotone_in_bounds
        (MIN_NUM_LICENSES MAX_NUM_LICENSES lower higher : Z)
        (self : SubscriptionPlanForm.form) :
  lower <= MIN_NUM_LICENSES ->
  MAX_NUM_LICENSES <= higher ->
  accepts (call (SubscriptionPlanForm.is_valid
                   MIN_NUM_LICENSES MAX_NUM_LICENSES self)) = true ->
  accepts (call (SubscriptionPlanForm.is_valid lower higher self)) = true.
Proof.
  intros Hlower Hhigher.
  destruct (SubscriptionPlanForm.base_errors MIN_NUM_LICENSES self)
    as [| err errs] eqn:Hbase.
  - destruct (clean_base_num_licenses _ _ Hbase) as (n & Hn & Hmin).
    assert (Hdata : SubscriptionPlanForm.data_num_licenses self
                    = Field.Whole n).
    { unfold SubscriptionPlanForm.cleaned_num_licenses, Field.cleaned_value,
        Field.clean in Hn.
      destruct (SubscriptionPlanForm.data_num_licenses self) as [| | m];
        simpl in Hn; try discriminate Hn.
      destruct (m <? MIN_NUM_LICENSES); congruence. }
    assert (Hother : SubscriptionPlanForm.other_field_errors self = []).
    { unfold SubscriptionPlanForm.base_errors in Hbase.
      apply app_eq_nil in Hbase. tauto. }
    assert (Hbase' : SubscriptionPlanForm.base_errors lower self = []).
    { unfold SubscriptionPlanForm.base_errors, Field.field_errors, Field.clean.
      rewrite Hdata, Hother. simpl.
      replace (n <? lower) with false by lia. reflexivity. }
    assert (Hn' : SubscriptionPlanForm.cleaned_num_licenses lower self
                  = Some n).
    { unfold SubscriptionPlanForm.cleaned_num_licenses, Field.cleaned_value,
        Field.clean.
      rewrite Hdata. simpl.
      replace (n <? lower) with false by lia. reflexivity. }
    unfold call.
    rewrite (is_valid_rules _ _ _ Hbase), (is_valid_rules _ _ _ Hbase').
    run. rewrite Hn, Hn'. cases; finish.
  - rewrite is_valid_base_failure by (rewrite Hbase; discriminate).
    rewrite Hbase. discriminate.
Qed.

(** X7. Of the attributes of [self.instance],
    [SubscriptionPlanForm.is_valid] reads only [for_internal_use_only],
    [is_revocation_cap_enabled] and, when the cap is enabled, whether
    [revoke_max_percentage] exceeds 100: two forms with the same
    [changed_data], cleaned data and base errors, whose instances agree on
    these three, get the same result. With the cap disabled the percentage
    is not looked at, and the dates and the active flag of the instance
    never are. *)
Theorem plan_verdict_reads_three_attributes
        (MIN_NUM_LICENSES MAX_NUM_LICENSES : Z)
        (self : SubscriptionPlanForm.form) (other : SubscriptionPlan) :
  for_internal_use_only other
  = for_internal_use_only (SubscriptionPlanForm.instance self) ->
  is_revocation_cap_enabled other
  = is_revocation_cap_enabled (SubscriptionPlanForm.instance self) ->
  (is_revocation_cap_enabled other = true ->
   (revoke_max_percentage other > 100
    <-> revoke_max_percentage (SubscriptionPlanForm.instance self) > 100)) ->
  call (SubscriptionPlanForm.is_valid
          MIN_NUM_LICENSES MAX_NUM_LICENSES (with_instance self other))
  = call (SubscriptionPlanForm.is_valid
            MIN_NUM_LICENSES MAX_NUM_LICENSES self).
Proof.
  intros Hinternal Hcap Hover.
  unfold call, SubscriptionPlanForm.is_valid,
    SubscriptionPlanForm.super_is_valid, SubscriptionPlanForm.base_errors,
    SubscriptionPlanForm.rules,
    SubscriptionPlanForm.check_enterprise_catalog_uuid,
    SubscriptionPlanForm.check_num_licenses,
    SubscriptionPlanForm.check_revoke_max_percentage,
    SubscriptionPlanForm.check_product,
    SubscriptionPlanForm.check_salesforce_opportunity_id,
    SubscriptionPlanForm.cleaned_num_licenses, with_instance.
  simpl. rewrite Hinternal, Hcap.
  destruct (is_revocation_cap_enabled (SubscriptionPlanForm.instance self))
    eqn:Henabled.
  - specialize (Hover Hcap).
    replace (revoke_max_percentage other >? 100)
      with (revoke_max_percentage (SubscriptionPlanForm.instance self)
            >? 100)
      by (destruct (revoke_max_percentage
                      (SubscriptionPlanForm.instance self) >? 100) eqn:E;
          lia).
    reflexivity.
  - reflexivity.
Qed.

(** X8. After a clean base validation, a call of
    [SubscriptionPlanForm.is_valid] that returns [False] leaves exactly one
    error, and it is one of the five (field, message) pairs of the source,
    the message of [num_licenses] quoting [MAX_NUM_LICENSES] in decimal. *)
Theorem plan_rejection_is_listed (MIN_NUM_LICENSES MAX_NUM_LICENSES : Z)
        (self : SubscriptionPlanForm.form) :
  SubscriptionPlanForm.base_errors MIN_NUM_LICENSES self = [] ->
  fst (call (SubscriptionPlanForm.is_valid
               MIN_NUM_LICENSES MAX_NUM_LICENSES self)) = Returned false ->
  exists rejection,
    snd (call (SubscriptionPlanForm.is_valid
                 MIN_NUM_LICENSES MAX_NUM_LICENSES self)) = [rejection]
    /\ In rejection (plan_rejections MAX_NUM_LICENSES).
Proof.
  intros Hbase. unfold call. rewrite (is_valid_rules _ _ _ Hbase).
  unfold plan_rejections. run.
  cases; simpl; intros Hreturned; try discriminate Hreturned;
    eexists; (split; [reflexivity |]); simpl; tauto.
Qed.

Section RenewalEdges.

Variable now : datetime.

(** X9. A renewal whose base validation passed and whose effective date is
    before [now] is rejected on [effective_date] with the message about the
    past, whatever the expiration date and the prior plan are, and also
    when they are missing. *)
Theorem past_effective_date_always_rejected
        (self : SubscriptionPlanRenewalForm.form) (effective : datetime) :
  SubscriptionPlanRenewalForm.field_errors self = [] ->
  SubscriptionPlanRenewalForm.cleaned_effective_date self = Some effective ->
  effective < now ->
  call (SubscriptionPlanRenewalForm.is_valid now self)
  = (Returned false,
     [("effective_date",
       "A subscription renewal can not be scheduled to become effective in the past.")]).
Proof.
  intros Hbase Heffective Hpast.
  run. rewrite Hbase, Heffective. simpl.
  replace (effective <? now) with true by lia. reflexivity.
Qed.

(** X10. The two dates are compared without a check for [None]: after a
    clean base validation, a missing [effective_date], or a missing
    [renewed_expiration_date] next to an effective date that is not in the
    past, ends the call with [TypeError] and no error reported. *)
Theorem missing_date_raises (self : SubscriptionPlanRenewalForm.form) :
  SubscriptionPlanRenewalForm.field_errors self = [] ->
  (SubscriptionPlanRenewalForm.cleaned_effective_date self = None ->
   call (SubscriptionPlanRenewalForm.is_valid now self)
   = (Raised TypeError, []))
  /\ (forall effective,
         SubscriptionPlanRenewalForm.cleaned_effective_date self
         = Some effective ->
         now <= effective ->
         SubscriptionPlanRenewalForm.cleaned_renewed_expiration_date self
         = None ->
         call (SubscriptionPlanRenewalForm.is_valid now self)
         = (Raised TypeError, [])).
Proof.
  intros Hbase. split.
  - intros Heffective. run. rewrite Hbase, Heffective. reflexivity.
  - intros effective Heffective Hfuture Hrenewed.
    run. rewrite Hbase, Heffective, Hrenewed. simpl.
    replace (effective <? now) with false by lia. reflexivity.
Qed.

(** X11. Of the prior plan, [SubscriptionPlanRenewalForm.is_valid] reads
    only [expiration_date]: two prior plans that expire at the same time
    give the same result, so the start date of the prior plan is never
    compared with anything. *)
Theorem renewal_reads_only_prior_expiration
        (self : SubscriptionPlanRenewalForm.form)
        (prior other : SubscriptionPlan) :
  expiration_date prior = expiration_date other ->
  call (SubscriptionPlanRenewalForm.is_valid now
          (with_prior self (Some prior)))
  = call (SubscriptionPlanRenewalForm.is_valid now
            (with_prior self (Some other))).
Proof.
  intros Hsame.
  unfold call, SubscriptionPlanRenewalForm.is_valid, with_prior, bind,
    getattr, ret.
  simpl. rewrite Hsame. reflexivity.
Qed.

End RenewalEdges.

Section AutoApplyComposition.

Variable now : datetime.

(** X12. The choices follow the rows of the query in order: over two tables
    put end to end, the choices are those of the first table followed by
    the plan choices of the second, with a single blank option in front. *)
Theorem choices_follow_the_rows (first second : list SubscriptionPlan)
        (agreement : CustomerAgreement) :
  CustomerAgreementAdminForm.choices
    (CustomerAgreementAdminForm.populate_subscription_for_auto_applied_licenses_choices
       now (first ++ second) agreement)
  = (CustomerAgreementAdminForm.choices
       (CustomerAgreementAdminForm.populate_subscription_for_auto_applied_licenses_choices
          now first agreement)
       ++ tl (CustomerAgreementAdminForm.choices
                (CustomerAgreementAdminForm.populate_subscription_for_auto_applied_licenses_choices
                   now second agreement)))%list
  /\ (length
        (CustomerAgreementAdminForm.choices
           (CustomerAgreementAdminForm.populate_subscription_for_auto_applied_licenses_choices
              now first agreement))
      <= 1 + length first)%nat.
Proof.
  unfold
    CustomerAgreementAdminForm.populate_subscription_for_auto_applied_licenses_choices.
  simpl. split.
  - rewrite filter_app, map_app. reflexivity.
  - rewrite length_map. apply le_n_S. apply filter_length_le.
Qed.

(** X13. The initial choice is one of the choices exactly when the
    agreement has no auto-applicable plan, or a plan of the table that
    matches the query has the uuid and the title of that plan: a current
    plan that the query does not return is pre-selected all the same. *)
Theorem initial_among_choices (objects : list SubscriptionPlan)
        (agreement : CustomerAgreement) :
  In (CustomerAgreementAdminForm.initial
        (CustomerAgreementAdminForm.populate_subscription_for_auto_applied_licenses_choices
           now objects agreement))
     (CustomerAgreementAdminForm.choices
        (CustomerAgreementAdminForm.populate_subscription_for_auto_applied_licenses_choices
           now objects agreement))
  <-> auto_applicable_subscription agreement = None
      \/ exists current plan,
        auto_applicable_subscription agreement = Some current
        /\ In plan objects
        /\ CustomerAgreementAdminForm.matches now agreement plan = true
        /\ uuid plan = uuid current
        /\ title plan = title current.
Proof.
  unfold
    CustomerAgreementAdminForm.populate_subscription_for_auto_applied_licenses_choices.
  simpl.
  destruct (auto_applicable_subscription agreement) as [current |].
  - simpl. split.
    + intros [Hblank | Hlisted]; [discriminate Hblank |].
      apply in_map_iff in Hlisted. destruct Hlisted as (plan & Hpair & Hin).
      apply filter_In in Hin. destruct Hin as [Hin Hmatch].
      inversion Hpair. right. exists current, plan. tauto.
    + intros [Hnone | (current' & plan & Hsome & Hin & Hmatch & Hu & Ht)];
        [discriminate Hnone |].
      inversion Hsome; subst current'. right.
      apply in_map_iff. exists plan. split.
      * rewrite Hu, Ht. reflexivity.
      * apply filter_In. tauto.
  - split; [intros _; left; reflexivity | intros _; left; reflexivity].
Qed.

End AutoApplyComposition.

(* ================================================================== *)
(** * The further properties on sample records *)

Lemma base_failure_short_circuits_witness :
  call (ProductForm.is_valid
          {| ProductForm.field_errors := [("name", "This field is required.")];
             ProductForm.instance := Sample.untyped_product |})
  = (Returned false, [("name", "This field is required.")]).
Proof.
  destruct base_failure_short_circuits as [_ [_ Hproduct]].
  apply (Hproduct
           {| ProductForm.field_errors :=
                [("name", "This field is required.")];
              ProductForm.instance := Sample.untyped_product |}).
  simpl. discriminate.
Defined.

Lemma returns_true_iff_no_errors_witness :
  snd (call (SubscriptionPlanRenewalForm.is_valid
               150 (Sample.renewal_form 200 500 (Some Sample.plan)))) = [].
Proof.
  destruct returns_true_iff_no_errors as [_ [Hrenewal _]].
  apply (Hrenewal 150 (Sample.renewal_form 200 500 (Some Sample.plan)) true);
    reflexivity.
Defined.

Lemma plan_acceptance_witness :
  accepts (call (SubscriptionPlanForm.is_valid
                   1 1000
                   (Sample.plan_form 10 50 ["customer_agreement"]
                                     (Some Sample.agreement)
                                     (Some Sample.product) (Some "006-A"))))
  = false.
Proof.
  destruct (accepts
              (call (SubscriptionPlanForm.is_valid
                       1 1000
                       (Sample.plan_form 10 50 ["customer_agreement"]
                                         (Some Sample.agreement)
                                         (Some Sample.product)
                                         (Some "006-A"))))) eqn:Haccepted;
    [| reflexivity].
  apply plan_acceptance in Haccepted.
  destruct Haccepted as (_ & Hlink & _).
  destruct (Hlink eq_refl) as (agreement & Hagreement & [Hdefault | Huuid]).
  - inversion Hagreement; subst agreement. exfalso. apply Hdefault.
    reflexivity.
  - exfalso. apply Huuid. reflexivity.
Defined.

Lemma renewal_acceptance_witness :
  accepts (call (SubscriptionPlanRenewalForm.is_valid
                   150 (Sample.renewal_form 200 200 (Some Sample.plan))))
  = true.
Proof.
  apply renewal_acceptance. split; [reflexivity |].
  exists 200, 200, Sample.plan.
  repeat split; try reflexivity; simpl; lia.
Defined.

Lemma product_acceptance_witness :
  accepts (call (ProductForm.is_valid
                   (Sample.product_form
                      {| plan_type := Some Sample.strict;
                         netsuite_id := Some "NS-1" |})))
  = true.
Proof.
  apply product_acceptance. split; [reflexivity |].
  exists Sample.strict. split; [reflexivity |].
  intros _. exists "NS-1". split; [reflexivity | discriminate].
Defined.

Lemma acceptance_monotone_in_bounds_witness :
  accepts (call (SubscriptionPlanForm.is_valid
                   1 1000
                   (Sample.plan_form 10 50 [] None (Some Sample.product)
                                     (Some "006-A"))))
  = true.
Proof.
  apply (acceptance_monotone_in_bounds 5 100 1 1000);
    [lia | lia | reflexivity].
Defined.

Lemma plan_verdict_reads_three_attributes_witness :
  call (SubscriptionPlanForm.is_valid
          1 1000
          (with_instance
             (Sample.plan_form 10 70 [] None (Some Sample.product)
                               (Some "006-A"))
             Sample.plan))
  = call (SubscriptionPlanForm.is_valid
            1 1000
            (Sample.plan_form 10 70 [] None (Some Sample.product)
                              (Some "006-A"))).
Proof.
  apply plan_verdict_reads_three_attributes;
    [reflexivity | reflexivity |].
  intros _. simpl. lia.
Defined.

Lemma plan_rejection_is_listed_witness :
  exists rejection,
    snd (call (SubscriptionPlanForm.is_valid
                 1 1000
                 (Sample.plan_form 1001 50 [] None (Some Sample.product)
                                   (Some "006-A"))))
    = [rejection]
    /\ In rejection (plan_rejections 1000).
Proof.
  apply plan_rejection_is_listed; reflexivity.
Defined.

Lemma past_effective_date_always_rejected_witness :
  call (SubscriptionPlanRenewalForm.is_valid
          150
          {| SubscriptionPlanRenewalForm.field_errors := [];
             SubscriptionPlanRenewalForm.cleaned_effective_date := Some 149;
             SubscriptionPlanRenewalForm.cleaned_renewed_expiration_date :=
               None;
             SubscriptionPlanRenewalForm.instance :=
               {| prior_subscription_plan := None |} |})
  = (Returned false,
     [("effective_date",
       "A subscription renewal can not be scheduled to become effective in the past.")]).
Proof.
  apply (past_effective_date_always_rejected 150 _ 149);
    [reflexivity | reflexivity | lia].
Defined.

Lemma missing_date_raises_witness :
  call (SubscriptionPlanRenewalForm.is_valid
          150
          {| SubscriptionPlanRenewalForm.field_errors := [];
             SubscriptionPlanRenewalForm.cleaned_effective_date := Some 150;
             SubscriptionPlanRenewalForm.cleaned_renewed_expiration_date :=
               None;
             SubscriptionPlanRenewalForm.instance :=
               {| prior_subscription_plan := Some Sample.plan |} |})
  = (Raised TypeError, []).
Proof.
  destruct (missing_date_raises
              150
              {| SubscriptionPlanRenewalForm.field_errors := [];
                 SubscriptionPlanRenewalForm.cleaned_effective_date :=
                   Some 150;
                 SubscriptionPlanRenewalForm.cleaned_renewed_expiration_date :=
                   None;
                 SubscriptionPlanRenewalForm.instance :=
                   {| prior_subscription_plan := Some Sample.plan |} |})
    as [_ Hrenewed]; [reflexivity |].
  apply (Hrenewed 150); [reflexivity | lia | reflexivity].
Defined.

Lemma renewal_reads_only_prior_expiration_witness :
  call (SubscriptionPlanRenewalForm.is_valid
          150 (with_prior (Sample.renewal_form 200 500 None)
                          (Some Sample.plan)))
  = call (SubscriptionPlanRenewalForm.is_valid
            150 (with_prior (Sample.renewal_form 200 500 None)
                            (Some Sample.other_plan))).
Proof.
  apply renewal_reads_only_prior_expiration. reflexivity.
Defined.

Lemma initial_among_choices_witness :
  ~ In (CustomerAgreementAdminForm.initial
          (CustomerAgreementAdminForm.populate_subscription_for_auto_applied_licenses_choices
             250 [Sample.expired_plan; Sample.plan; Sample.other_plan]
             Sample.agreement))
       (CustomerAgreementAdminForm.choices
          (CustomerAgreementAdminForm.populate_subscription_for_auto_applied_licenses_choices
             250 [Sample.expired_plan; Sample.plan; Sample.other_plan]
             Sample.agreement)).
Proof.
  intros Hlisted. apply initial_among_choices in Hlisted.
  destruct Hlisted as [Hnone | (current & plan & _ & Hin & Hmatch & _)].
  - discriminate Hnone.
  - simpl in Hin.
    destruct Hin as [Hp | [Hp | [Hp | []]]]; subst plan;
      discriminate Hmatch.
Defined.
